(** * libutil: a shallow embedding of [utils.h]

    [utils.h] is a single header with three allocation wrappers
    ([_xmalloc], [_xrealloc], [_xfree]) and one logging routine
    ([__output]).  Everything the header does is an effect on the C
    runtime: it writes to the two standard output streams, reads
    characters from standard input, calls the allocator, and ends the
    process with [abort] or [exit].  The embedding therefore threads an
    explicit [world] through a small monad whose results record how a
    call ended. *)

From Stdlib Require Import ZArith Ascii String Lia.
From stdpp Require Import gmap strings pretty.

Local Open Scope Z_scope.

(** ** The C runtime as seen by the header *)

(** The part of the process state the header can observe or change. *)
Record world := World {
  heap   : gset Z;         (* addresses of the live heap blocks *)
  vars   : gmap string Z;  (* pointer variables of the calling program *)
  stdin  : string;         (* characters not yet read from standard input *)
  stdout : string;         (* everything written to standard output *)
  stderr : string          (* everything written to standard error *)
}.

Definition set_heap (h : gset Z) (w : world) : world :=
  World h (vars w) (stdin w) (stdout w) (stderr w).
Definition set_vars (v : gmap string Z) (w : world) : world :=
  World (heap w) v (stdin w) (stdout w) (stderr w).
Definition set_stdin (s : string) (w : world) : world :=
  World (heap w) (vars w) s (stdout w) (stderr w).
Definition set_stdout (s : string) (w : world) : world :=
  World (heap w) (vars w) (stdin w) s (stderr w).
Definition set_stderr (s : string) (w : world) : world :=
  World (heap w) (vars w) (stdin w) (stdout w) s.

(** How a call ends.  [Abort] and [Exit] end the whole process, so the
    caller never runs again; [OutOfFuel] is not an outcome of the C
    program: it marks a loop that is still running when the iteration
    bound given to the model is reached. *)
Inductive result (A : Type) : Type :=
| Return (a : A)
| Abort
| Exit (status : Z)
| OutOfFuel.
Arguments Return {A} a.
Arguments Abort {A}.
Arguments Exit {A} status.
Arguments OutOfFuel {A}.

Definition M (A : Type) : Type := world -> result A * world.

Definition ret {A} (a : A) : M A := fun w => (Return a, w).

Definition bind {A B} (m : M A) (k : A -> M B) : M B :=
  fun w =>
    match m w with
    | (Return a, w') => k a w'
    | (Abort, w') => (Abort, w')
    | (Exit st, w') => (Exit st, w')
    | (OutOfFuel, w') => (OutOfFuel, w')
    end.

Declare Scope c_scope.
Delimit Scope c_scope with C.
Notation "x <- m ;; k" := (bind m (fun x => k))
  (at level 100, m at next level, right associativity) : c_scope.
Notation "m ;; k" := (bind m (fun _ => k))
  (at level 100, right associativity) : c_scope.
Local Open Scope c_scope.

(** [abort()] and [exit(status)] of <stdlib.h>. *)
Definition abort {A} : M A := fun w => (Abort, w).
Definition exit {A} (status : Z) : M A := fun w => (Exit status, w).
Definition out_of_fuel {A} : M A := fun w => (OutOfFuel, w).

Definition NULL : Z := 0.

(** *** <stdio.h> *)

Inductive FILE := Stdout | Stderr.

Definition fwrite (f : FILE) (s : string) : M unit :=
  fun w =>
    match f with
    | Stdout => (Return tt, set_stdout (stdout w +:+ s) w)
    | Stderr => (Return tt, set_stderr (stderr w +:+ s) w)
    end.

(** The variadic arguments of a [printf] call. *)
Inductive arg :=
| AStr (s : string)
| AInt (n : Z)
| AChar (c : ascii).

(** The text [printf] produces.  The conversions modelled are the ones
    the header's own format strings use ([%s], [%d]) together with [%c]
    and [%%]; a directive outside this set, or one whose argument is
    missing or of the wrong kind (undefined behaviour in C), is copied
    through unchanged. *)
Fixpoint format (fmt : string) (args : list arg) : string :=
  match fmt with
  | EmptyString => EmptyString
  | String "%" (String c rest as tl) =>
      match c, args with
      | "s"%char, AStr s :: args' => s +:+ format rest args'
      | "d"%char, AInt n :: args' => pretty n +:+ format rest args'
      | "c"%char, AChar a :: args' => String a (format rest args')
      | "%"%char, _ => String "%" (format rest args)
      | _, _ => String "%" (format tl args)
      end
  | String c rest => String c (format rest args)
  end.

Definition fprintf (f : FILE) (fmt : string) (args : list arg) : M unit :=
  fwrite f (format fmt args).
Definition printf : string -> list arg -> M unit := fprintf Stdout.
Definition vfprintf : FILE -> string -> list arg -> M unit := fprintf.
Definition vprintf : string -> list arg -> M unit := printf.

Definition EOF : Z := -1.

(** The value of a character constant such as ['y']: an [int] holding
    the character's code. *)
Definition chr (c : ascii) : Z := Z.of_N (N_of_ascii c).

(** [getc (stdin)]: the next character as an [unsigned char] converted
    to [int], or [EOF] once the input is exhausted (the end-of-file
    indicator is sticky, so every later read yields [EOF] again). *)
Definition getc_stdin : M Z :=
  fun w =>
    match stdin w with
    | EmptyString => (Return EOF, w)
    | String c rest => (Return (chr c), set_stdin rest w)
    end.

(** The line feed, written ["\n"] in C. *)
Definition LF : string := String "010" EmptyString.
(** The carriage return, written ['\r'] in C. *)
Definition CR : ascii := "013"%char.

(** *** <stdlib.h>: the allocator *)

(** [free (p)]: no action for a null pointer, otherwise the block at [p]
    stops being live. *)
Definition free (p : Z) : M unit :=
  fun w =>
    if p =? NULL then (Return tt, w)
    else (Return tt, set_heap (heap w ∖ {[p]}) w).

(** Reading and assigning a pointer variable of the caller. *)
Definition load (x : string) : M Z :=
  fun w => (Return (default NULL (vars w !! x)), w).
Definition store (x : string) (p : Z) : M unit :=
  fun w => (Return tt, set_vars (<[x := p]> (vars w)) w).

(** ** The header *)

(** [enum _OutputType]. *)
Inductive _OutputType := Info | Warn_NoAck | Warn_Ack | Error.

Section Allocation.

(** The platform allocator decides which address a request gets, or
    that it fails (a null result); the header only looks at the
    address returned.  Both functions are taken as given: from the
    request and the live blocks they yield an address and the new set
    of live blocks. *)
Variable malloc_impl : Z -> gset Z -> Z * gset Z.
Variable realloc_impl : Z -> Z -> gset Z -> Z * gset Z.

Definition malloc (size : Z) : M Z :=
  fun w => let '(p, h) := malloc_impl size (heap w) in (Return p, set_heap h w).
Definition realloc (ptr size : Z) : M Z :=
  fun w => let '(p, h) := realloc_impl ptr size (heap w) in (Return p, set_heap h w).

Definition _xmalloc (size : Z) : M Z :=
  ptr <- malloc size ;;
  if negb (ptr =? NULL) then
    ret ptr
  else
    (fprintf Stderr " ** libutils: FATAL: memory allocation failed!" [] ;;
     abort).

Definition _xrealloc (ptr size : Z) : M Z :=
  newBuf <- realloc ptr size ;;
  if negb (newBuf =? NULL) && negb (newBuf =? ptr) then
    ret newBuf
  else
    (fprintf Stderr " ** libutils: FATAL: memory reallocation failed!" [] ;;
     abort).

End Allocation.

(** The macro [_xfree(ptr)], applied to the pointer variable [ptr] of
    the caller: [{ free ((ptr)); (ptr) = NULL; }]. *)
Definition _xfree (ptr : string) : M unit :=
  p <- load ptr ;;
  free p ;;
  store ptr NULL.

Section Output.

(** Whether plain [char] is a signed type is the platform's choice;
    it decides what [char yn = getc (stdin)] stores for [EOF] and for
    the characters above 127. *)
Variable char_is_signed : bool.

(** Conversion of an [int] to [char], and back to [int] by the
    promotion the [switch] applies.  A value that does not fit a signed
    [char] wraps around modulo 256, as the usual platforms define it. *)
Definition to_char (i : Z) : Z :=
  if char_is_signed then (i + 128) mod 256 - 128 else i mod 256.

(** [static const char *Head] of [__output]. *)
Definition Head : string := " ** libutils:".

(** [while (getc(stdin) != EOF) {}] *)
Fixpoint clean_stdin (fuel : nat) : M unit :=
  match fuel with
  | O => out_of_fuel
  | S n =>
      c <- getc_stdin ;;
      if negb (c =? EOF) then clean_stdin n else ret tt
  end.

(** The [while (1)] loop of the [Warn_Ack] case.  One unit of fuel is
    spent per iteration; the rest is handed to the inner loop.  The
    initial value ['N'] of [yn] is overwritten before it is ever read,
    so it does not appear. *)
Fixpoint ack_loop (fuel : nat) : M unit :=
  match fuel with
  | O => out_of_fuel
  | S n =>
      printf " -> Continue? [y/N]" [] ;;
      c <- getc_stdin ;;
      let yn := to_char c in
      if (yn =? chr "Y") || (yn =? chr "y") then
        clean_stdin n  (* then [return] *)
      else if (yn =? chr "N") || (yn =? chr "n") || (yn =? chr CR) then
        exit 255
      else
        (printf "    Please answer [y]es or [N]o." [] ;;
         ack_loop n)
  end.

Definition __output (fuel : nat) (file func : string) (line : Z)
    (outputType : _OutputType) (fmt : string) (args : list arg) : M unit :=
  match outputType with
  | Info =>
      printf "%s In %s (%s:%d) INFO: " [AStr Head; AStr func; AStr file; AInt line] ;;
      vprintf fmt args ;;
      printf LF []
  | Warn_NoAck =>
      printf "%s In %s (%s:%d) WARN: " [AStr Head; AStr func; AStr file; AInt line] ;;
      vprintf fmt args ;;
      printf LF []
  | Warn_Ack =>
      printf "%s In %s (%s:%d) WARN: " [AStr Head; AStr func; AStr file; AInt line] ;;
      vprintf fmt args ;;
      printf LF [] ;;
      ack_loop fuel
  | Error =>
      fprintf Stderr "%s In %s (%s:%d) FAIL: " [AStr Head; AStr func; AStr file; AInt line] ;;
      vfprintf Stderr fmt args ;;
      printf LF [] ;;
      abort
  end.

End Output.

(** *** The wrapper macros

    [_output] and the macros built on it expand at the call site, where
    [__FILE__], [__func__] and [__LINE__] name the caller's position;
    the first of the variadic arguments is the format. *)
Record call_site := CallSite {
  site_file : string;  (* [__FILE__] *)
  site_func : string;  (* [__func__] *)
  site_line : Z        (* [__LINE__] *)
}.

Section Macros.

Variable char_is_signed : bool.
Variable fuel : nat.

Definition _output (here : call_site) (output_type : _OutputType)
    (fmt : string) (args : list arg) : M unit :=
  __output char_is_signed fuel (site_file here) (site_func here) (site_line here)
    output_type fmt args.

Definition _warn_ack (here : call_site) : string -> list arg -> M unit :=
  _output here Warn_Ack.

End Macros.

(** ** Vocabulary of the statements *)

(** A world to run the examples in: nothing allocated, no output yet,
    and [input] waiting on standard input. *)
Definition initial (input : string) : world := World ∅ ∅ input "" "".

(** The text of a log line, without its newline, as the interface
    description gives it:
    [" ** libutils: In <routine> (<file>:<line>) <LEVEL>: "] followed by
    the formatted message. *)
Definition log_line (level routine file : string) (line : Z) (msg : string) : string :=
  " ** libutils: In " +:+ routine +:+ " (" +:+ file +:+ ":" +:+ pretty line
    +:+ ") " +:+ level +:+ ": " +:+ msg.

(** The answers the [switch] tells apart. *)
Definition is_accept (c : ascii) : bool := Ascii.eqb c "Y" || Ascii.eqb c "y".
Definition is_decline (c : ascii) : bool :=
  Ascii.eqb c "N" || Ascii.eqb c "n" || Ascii.eqb c CR.

Definition prompt : string := " -> Continue? [y/N]".
Definition reprompt : string := "    Please answer [y]es or [N]o.".

(** [n] copies of [s], one after the other. *)
Fixpoint repeat_string (n : nat) (s : string) : string :=
  match n with
  | O => ""
  | S m => s +:+ repeat_string m s
  end.

(** How many times [pat] occurs in [s]. *)
Fixpoint occurrences (pat s : string) : nat :=
  match s with
  | EmptyString => O
  | String _ rest =>
      ((if String.prefix pat s then 1 else 0) + occurrences pat rest)%nat
  end.

(** A character the [switch] acts on, and whether a text holds one. *)
Definition is_answer (c : ascii) : bool := is_accept c || is_decline c.

Fixpoint has_answer (s : string) : bool :=
  match s with
  | EmptyString => false
  | String c rest => is_answer c || has_answer rest
  end.

(** [s] without its first [n] characters. *)
Fixpoint drop_chars (n : nat) (s : string) : string :=
  match n, s with
  | O, _ => s
  | S m, EmptyString => EmptyString
  | S m, String _ rest => drop_chars m rest
  end.

(** ** Allocation guard *)

Lemma append_assoc (a b c : string) : (a +:+ b) +:+ c = a +:+ b +:+ c.
Proof.
  induction a as [|x a IH]; [reflexivity |].
  change (String x ((a +:+ b) +:+ c) = String x (a +:+ b +:+ c)).
  now rewrite IH.
Qed.

Lemma append_empty_r (a : string) : a +:+ "" = a.
Proof.
  induction a as [|x a IH]; [reflexivity |].
  change (String x (a +:+ "") = String x a).
  now rewrite IH.
Qed.

(** C6: [_xmalloc] hands back the allocator's address when it is not
    null; when the allocator yields null it writes the fixed diagnostic
    (no newline after it) to standard error, writes nothing else, and
    aborts the process. *)
Theorem xmalloc_returns_or_aborts
    (malloc_impl : Z -> gset Z -> Z * gset Z) (size : Z) (w : world) :
  let p := (malloc_impl size (heap w)).1 in
  let h := (malloc_impl size (heap w)).2 in
  (p ≠ NULL ∧ _xmalloc malloc_impl size w = (Return p, set_heap h w))
  ∨ (p = NULL ∧
     _xmalloc malloc_impl size w =
       (Abort,
        set_stderr (stderr w +:+ " ** libutils: FATAL: memory allocation failed!")
          (set_heap h w))).
Proof.
  unfold _xmalloc, bind, malloc; simpl.
  destruct (malloc_impl size (heap w)) as [p h]; simpl.
  destruct (Z.eqb_spec p NULL) as [-> | Hp]; simpl.
  - right. split; reflexivity.
  - left. split; [assumption | reflexivity].
Qed.

(** C1: [_xrealloc] returns exactly when [realloc] yields an address
    that is neither null nor the address passed in, and then returns
    that address; in every other case it writes the reallocation
    diagnostic to standard error and aborts the process. *)
Theorem xrealloc_returns_iff_fresh_address
    (realloc_impl : Z -> Z -> gset Z -> Z * gset Z) (ptr size : Z) (w : world) :
  let newBuf := (realloc_impl ptr size (heap w)).1 in
  let h := (realloc_impl ptr size (heap w)).2 in
  ((∃ q, (_xrealloc realloc_impl ptr size w).1 = Return q)
     ↔ newBuf ≠ NULL ∧ newBuf ≠ ptr)
  ∧ ((newBuf ≠ NULL ∧ newBuf ≠ ptr) ∧
       _xrealloc realloc_impl ptr size w = (Return newBuf, set_heap h w)
     ∨ ¬ (newBuf ≠ NULL ∧ newBuf ≠ ptr) ∧
       _xrealloc realloc_impl ptr size w =
         (Abort,
          set_stderr (stderr w +:+ " ** libutils: FATAL: memory reallocation failed!")
            (set_heap h w))).
Proof.
  unfold _xrealloc, bind, realloc; simpl.
  destruct (realloc_impl ptr size (heap w)) as [q h]; simpl.
  destruct (Z.eqb_spec q NULL) as [Hq | Hq]; simpl.
  - split.
    + split; [intros [r Hr]; discriminate | intros [Hn _]; contradiction].
    + right. split; [tauto | reflexivity].
  - destruct (Z.eqb_spec q ptr) as [Hp | Hp]; simpl.
    + split.
      * split; [intros [r Hr]; discriminate | intros [_ Hn]; contradiction].
      * right. split; [tauto | reflexivity].
    + split.
      * split; [intros _; split; assumption | intros _; eexists; reflexivity].
      * left. split; [split; assumption | reflexivity].
Qed.

(** C8: [_xfree] on a pointer variable returns normally, leaves the
    variable null, and the block it pointed to is no longer live (no
    other block and no other variable is touched, and nothing is read or
    written on the standard streams); on a variable that is already
    null the world is unchanged. *)
Theorem xfree_releases_and_clears (x : string) (p : Z) (w : world) :
  vars w !! x = Some p →
  ∃ w', _xfree x w = (Return tt, w')
        ∧ vars w' !! x = Some NULL
        ∧ (∀ y : string, y ≠ x → vars w' !! y = vars w !! y)
        ∧ (p ≠ NULL → (p ∉ heap w') ∧ heap w' = heap w ∖ {[p]})
        ∧ (p = NULL → w' = w)
        ∧ stdin w' = stdin w ∧ stdout w' = stdout w ∧ stderr w' = stderr w.
Proof.
  intros Hx. unfold _xfree, bind, load, free, store. rewrite Hx. simpl.
  destruct (Z.eqb_spec p NULL) as [-> | Hp].
  - eexists. split; [reflexivity |]. simpl.
    split; [apply lookup_insert_eq |].
    split; [intros y Hy; now apply lookup_insert_ne |].
    split; [intros Hn; exfalso; apply Hn; reflexivity |].
    split; [| auto].
    intros _. destruct w as [h v i o e]; unfold set_vars; simpl in *.
    f_equal. now apply insert_id.
  - eexists. split; [reflexivity |]. simpl.
    split; [apply lookup_insert_eq |].
    split; [intros y Hy; now apply lookup_insert_ne |].
    split; [intros _; split; [| reflexivity] |].
    { intros [_ Hnot]%elem_of_difference. apply Hnot. now apply elem_of_singleton. }
    split; [intros Hn; contradiction | auto].
Qed.

Lemma xfree_releases_and_clears_witness :
  let w := World {[5; 6]} {["p" := 5]} "" "" "" in
  ∃ w', _xfree "p" w = (Return tt, w')
        ∧ vars w' !! "p" = Some NULL
        ∧ (∀ y : string, y ≠ "p" → vars w' !! y = vars w !! y)
        ∧ (5 ≠ NULL → (5 ∉ heap w') ∧ heap w' = heap w ∖ {[5]})
        ∧ (5 = NULL → w' = w)
        ∧ stdin w' = stdin w ∧ stdout w' = stdout w ∧ stderr w' = stderr w.
Proof.
  apply (xfree_releases_and_clears "p" 5 (World {[5; 6]} {["p" := 5]} "" "" "")).
  reflexivity.
Defined.

(** ** Leveled logger *)

(** Closes an equation between two results whose worlds differ only in
    how the appends on the streams are bracketed. *)
Ltac same_world :=
  repeat match goal with w : world |- _ => destruct w end;
  unfold set_stdin, set_stdout, set_stderr;
  cbn [heap vars stdin stdout stderr];
  rewrite ?append_assoc; reflexivity.

Lemma format_prefix (level file func : string) (line : Z) :
  format ("%s In %s (%s:%d) " +:+ level) [AStr Head; AStr func; AStr file; AInt line]
  = " ** libutils: In " +:+ func +:+ " (" +:+ file +:+ ":" +:+ pretty line
      +:+ ") " +:+ format level [].
Proof. reflexivity. Qed.

Lemma log_line_prefix (tail level file func : string) (line : Z) (msg : string) :
  format tail [] = level +:+ ": " →
  format ("%s In %s (%s:%d) " +:+ tail) [AStr Head; AStr func; AStr file; AInt line]
    +:+ msg
  = log_line level func file line msg.
Proof.
  intros Hl. rewrite format_prefix, Hl. unfold log_line.
  now rewrite !append_assoc.
Qed.

(** The three calls every case of [__output] starts with, when all
    three go to standard output. *)
Lemma print_log_line (tail level file func : string) (line : Z)
    (fmt : string) (args : list arg) (w : world) :
  format tail [] = level +:+ ": " →
  (printf ("%s In %s (%s:%d) " +:+ tail) [AStr Head; AStr func; AStr file; AInt line] ;;
   vprintf fmt args ;;
   printf LF []) w
  = (Return tt,
     set_stdout (stdout w +:+ log_line level func file line (format fmt args) +:+ LF) w).
Proof.
  intros Hl. unfold bind, vprintf, printf, fprintf, fwrite.
  destruct w as [h v i o e]; unfold set_stdout; simpl.
  do 2 f_equal.
  rewrite <- (log_line_prefix tail level file func line (format fmt args) Hl).
  now rewrite !append_assoc.
Qed.

(** C7: at [Info] and at [Warn_NoAck] the call writes exactly one log
    line and its newline to standard output, with [INFO] and [WARN] as
    the level, touches nothing else and returns; the end-to-end example
    of the interface description comes out character for character. *)
Theorem output_info_warn_noack_line (char_is_signed : bool) (fuel : nat)
    (file func : string) (line : Z) (fmt : string) (args : list arg) (w : world) :
  __output char_is_signed fuel file func line Info fmt args w
    = (Return tt,
       set_stdout (stdout w +:+ log_line "INFO" func file line (format fmt args) +:+ LF) w)
  ∧ __output char_is_signed fuel file func line Warn_NoAck fmt args w
    = (Return tt,
       set_stdout (stdout w +:+ log_line "WARN" func file line (format fmt args) +:+ LF) w)
  ∧ __output char_is_signed fuel "a.c" "main" 10 Info "%s=%d" [AStr "x"; AInt 1] (initial "")
    = (Return tt,
       set_stdout (" ** libutils: In main (a.c:10) INFO: x=1" +:+ LF) (initial "")).
Proof.
  split; [| split].
  - apply (print_log_line "INFO: " "INFO"). reflexivity.
  - apply (print_log_line "WARN: " "WARN"). reflexivity.
  - reflexivity.
Qed.

(** What [__output] has done at [Warn_Ack] when it enters the
    confirmation loop: the same line as [Warn_NoAck] is on standard
    output. *)
Lemma output_Warn_Ack_enters_loop (char_is_signed : bool) (fuel : nat)
    (file func : string) (line : Z) (fmt : string) (args : list arg) (w : world) :
  __output char_is_signed fuel file func line Warn_Ack fmt args w
  = ack_loop char_is_signed fuel
      (set_stdout (stdout w +:+ log_line "WARN" func file line (format fmt args) +:+ LF) w).
Proof.
  pose proof (print_log_line "WARN: " "WARN" file func line fmt args w eq_refl) as H.
  unfold __output. unfold bind in *.
  change ("%s In %s (%s:%d) " +:+ "WARN: ") with "%s In %s (%s:%d) WARN: " in H.
  destruct (printf "%s In %s (%s:%d) WARN: " _ w) as [[[]| | |] w1]; try discriminate H;
    destruct (vprintf fmt args w1) as [[[]| | |] w2]; try discriminate H;
    destruct (printf LF [] w2) as [[[]| | |] w3]; try discriminate H.
  now injection H as ->.
Qed.

(** *** What [char yn = getc (stdin)] holds *)

Lemma chr_range (c : ascii) : 0 ≤ chr c < 256.
Proof.
  unfold chr. pose proof (N_ascii_bounded c). lia.
Qed.

Lemma chr_inj (c d : ascii) : chr c = chr d → c = d.
Proof.
  unfold chr. intros H%N2Z.inj.
  rewrite <- (ascii_N_embedding c), <- (ascii_N_embedding d). now rewrite H.
Qed.

Lemma to_char_small (char_is_signed : bool) (x : Z) :
  0 ≤ x < 128 → to_char char_is_signed x = x.
Proof.
  intros Hx. unfold to_char. destruct char_is_signed.
  - rewrite Z.mod_small by lia. lia.
  - apply Z.mod_small. lia.
Qed.

Lemma to_char_large (char_is_signed : bool) (x : Z) :
  128 ≤ x < 256 →
  to_char char_is_signed x = if char_is_signed then x - 256 else x.
Proof.
  intros Hx. unfold to_char. destruct char_is_signed.
  - replace (x + 128) with (x - 128 + 1 * 256) by lia.
    rewrite Z_mod_plus_full, Z.mod_small by lia. lia.
  - apply Z.mod_small. lia.
Qed.

(** Stored in a [char] and promoted again, a character read from the
    input still compares equal to a 7-bit character constant exactly
    when it is that character, whatever the signedness of [char]. *)
Lemma to_char_chr_eqb (char_is_signed : bool) (c d : ascii) :
  chr d < 128 →
  (to_char char_is_signed (chr c) =? chr d) = Ascii.eqb c d.
Proof.
  intros Hd. pose proof (chr_range c) as Hc. pose proof (chr_range d) as Hd'.
  destruct (Ascii.eqb_spec c d) as [-> | Hne].
  - rewrite to_char_small by lia. apply Z.eqb_refl.
  - apply Z.eqb_neq. intros Heq.
    destruct (Z_lt_ge_dec (chr c) 128) as [Hs | Hl].
    + rewrite to_char_small in Heq by lia. now apply Hne, chr_inj.
    + rewrite to_char_large in Heq by lia.
      destruct char_is_signed; [lia | now apply Hne, chr_inj].
Qed.

(** One iteration of the loop on a character [c] of the input. *)
Lemma ack_loop_char (char_is_signed : bool) (n : nat) (c : ascii) (rest : string)
    (w : world) :
  stdin w = String c rest →
  ack_loop char_is_signed (S n) w
  = let w1 := set_stdin rest (set_stdout (stdout w +:+ prompt) w) in
    if is_accept c then clean_stdin n w1
    else if is_decline c then (Exit 255, w1)
    else ack_loop char_is_signed n (set_stdout (stdout w1 +:+ reprompt) w1).
Proof.
  intros Hin. destruct w as [h v i o e]; simpl in Hin; subst i.
  cbn [ack_loop]. unfold bind at 1. cbn [printf fprintf fwrite format].
  unfold bind at 1. unfold getc_stdin at 1. cbn [stdin set_stdout].
  rewrite !to_char_chr_eqb by (vm_compute; reflexivity).
  unfold is_accept, is_decline.
  destruct (Ascii.eqb c "Y" || Ascii.eqb c "y"); [reflexivity |].
  destruct (Ascii.eqb c "N" || Ascii.eqb c "n" || Ascii.eqb c CR); reflexivity.
Qed.

(** One iteration of the loop at the end of the input. *)
Lemma ack_loop_eof (char_is_signed : bool) (n : nat) (w : world) :
  stdin w = "" →
  ack_loop char_is_signed (S n) w
  = ack_loop char_is_signed n (set_stdout (stdout w +:+ prompt +:+ reprompt) w).
Proof.
  intros Hin. destruct w as [h v i o e]; simpl in Hin; subst i.
  cbn [ack_loop]. unfold bind at 1. cbn [printf fprintf fwrite format].
  unfold bind at 1. unfold getc_stdin at 1. cbn [stdin set_stdout].
  replace (to_char char_is_signed EOF =? chr "Y") with false
    by (destruct char_is_signed; reflexivity).
  replace (to_char char_is_signed EOF =? chr "y") with false
    by (destruct char_is_signed; reflexivity).
  replace (to_char char_is_signed EOF =? chr "N") with false
    by (destruct char_is_signed; reflexivity).
  replace (to_char char_is_signed EOF =? chr "n") with false
    by (destruct char_is_signed; reflexivity).
  replace (to_char char_is_signed EOF =? chr CR) with false
    by (destruct char_is_signed; reflexivity).
  cbn [orb]. unfold bind at 1. cbn [printf fprintf fwrite format set_stdout stdout].
  unfold set_stdout; cbn. now rewrite append_assoc.
Qed.

(** The inner loop empties the input and returns, given one unit of
    fuel per character and one for the read that meets [EOF]. *)
Lemma clean_stdin_drains (fuel : nat) (w : world) :
  (String.length (stdin w) < fuel)%nat →
  clean_stdin fuel w = (Return tt, set_stdin "" w).
Proof.
  revert w. induction fuel as [|n IH]; intros w Hlen; [lia |].
  destruct w as [h v i o e]. cbn [stdin] in Hlen.
  cbn [clean_stdin]. unfold bind, getc_stdin. cbn [stdin].
  destruct i as [|c rest].
  - reflexivity.
  - pose proof (chr_range c) as Hc.
    destruct (Z.eqb_spec (chr c) EOF) as [He | _]; [unfold EOF in He; lia |].
    cbn [negb]. rewrite IH by (cbn in *; lia). reflexivity.
Qed.

(** At the end of the input the loop only ever re-prompts: after any
    number of iterations it is still running. *)
Lemma ack_loop_eof_forever (char_is_signed : bool) (fuel : nat) (w : world) :
  stdin w = "" →
  ack_loop char_is_signed fuel w
  = (OutOfFuel,
     set_stdout (stdout w +:+ repeat_string fuel (prompt +:+ reprompt)) w).
Proof.
  revert w. induction fuel as [|n IH]; intros w Hin.
  - cbn. destruct w; unfold out_of_fuel, set_stdout; cbn.
    now rewrite append_empty_r.
  - rewrite ack_loop_eof by assumption.
    rewrite IH by (destruct w; assumption).
    destruct w as [h v i o e]; unfold set_stdout; cbn [stdout heap vars stdin stderr].
    cbn [repeat_string]. now rewrite !append_assoc.
Qed.

(** C2 (as the code behaves): at [Error] the log line goes to standard
    error, but the newline that ends it is written to standard output;
    then the process aborts.  On the call
    [__output ("a.c", "main", 10, Error, "boom")] standard error holds
    the line without a newline and standard output holds the newline. *)
Theorem output_error_newline_on_stdout (char_is_signed : bool) (fuel : nat)
    (file func : string) (line : Z) (fmt : string) (args : list arg) (w : world) :
  __output char_is_signed fuel file func line Error fmt args w
    = (Abort,
       set_stdout (stdout w +:+ LF)
         (set_stderr (stderr w +:+ log_line "FAIL" func file line (format fmt args)) w))
  ∧ (let r := __output char_is_signed fuel "a.c" "main" 10 Error "boom" [] (initial "") in
     r.1 = Abort
     ∧ stderr r.2 = " ** libutils: In main (a.c:10) FAIL: boom"
     ∧ stdout r.2 = LF
     ∧ stderr r.2 ≠ " ** libutils: In main (a.c:10) FAIL: boom" +:+ LF).
Proof.
  split.
  - unfold __output, bind, vfprintf, printf, fprintf, fwrite.
    destruct w as [h v i o e]; unfold set_stdout, set_stderr; simpl.
    do 2 f_equal.
    rewrite <- (log_line_prefix "FAIL: " "FAIL" file func line (format fmt args) eq_refl).
    now rewrite !append_assoc.
  - cbv zeta. repeat split; try reflexivity. vm_compute. discriminate.
Qed.

(** C3: in the confirmation loop a character ['N'], ['n'] or ['\r']
    ends the process with exit status 255 right after it is read, at
    whichever iteration it arrives; whatever the caller would have done
    after the [Warn_Ack] call does not run. *)
Theorem warn_ack_decline_exits_255 (char_is_signed : bool) (n : nat) (c : ascii)
    (rest : string) (w : world) :
  c = "N"%char ∨ c = "n"%char ∨ c = CR →
  stdin w = String c rest →
  ack_loop char_is_signed (S n) w
    = (Exit 255, set_stdin rest (set_stdout (stdout w +:+ prompt) w))
  ∧ ∀ (file func : string) (line : Z) (fmt : string) (args : list arg)
      (caller : M unit),
      (__output char_is_signed (S n) file func line Warn_Ack fmt args ;; caller) w
      = (Exit 255,
         set_stdin rest
           (set_stdout (stdout w +:+ log_line "WARN" func file line (format fmt args)
                          +:+ LF +:+ prompt) w)).
Proof.
  intros Hc Hin.
  assert (Hcls : is_accept c = false ∧ is_decline c = true)
    by (destruct Hc as [-> | [-> | ->]]; split; reflexivity).
  destruct Hcls as [Ha Hd]. split.
  - rewrite (ack_loop_char _ _ c rest) by assumption. cbv zeta. now rewrite Ha, Hd.
  - intros file func line fmt args caller. unfold bind at 1.
    rewrite output_Warn_Ack_enters_loop.
    rewrite (ack_loop_char _ _ c rest) by (destruct w; assumption).
    cbv zeta. rewrite Ha, Hd.
    same_world.
Qed.

Lemma warn_ack_decline_exits_255_witness :
  ack_loop true 1 (initial ("n" +:+ LF))
    = (Exit 255,
       set_stdin LF (set_stdout (stdout (initial ("n" +:+ LF)) +:+ prompt)
                       (initial ("n" +:+ LF))))
  ∧ ∀ (file func : string) (line : Z) (fmt : string) (args : list arg)
      (caller : M unit),
      (__output true 1 file func line Warn_Ack fmt args ;; caller)
        (initial ("n" +:+ LF))
      = (Exit 255,
         set_stdin LF
           (set_stdout (stdout (initial ("n" +:+ LF))
                          +:+ log_line "WARN" func file line (format fmt args)
                          +:+ LF +:+ prompt) (initial ("n" +:+ LF)))).
Proof.
  apply (warn_ack_decline_exits_255 true 0 "n" LF (initial ("n" +:+ LF))).
  - right. left. reflexivity.
  - reflexivity.
Defined.

(** C4: in the confirmation loop a character ['Y'] or ['y'] makes the
    call read and discard everything left on standard input, up to the
    end of the input, and then return to the caller; the process is not
    terminated.  The fuel needed is one unit for the iteration, one per
    discarded character and one for the read that meets the end. *)
Theorem warn_ack_accept_drains_and_returns (char_is_signed : bool) (fuel : nat)
    (c : ascii) (rest : string) (w : world) :
  c = "Y"%char ∨ c = "y"%char →
  stdin w = String c rest →
  (String.length rest + 2 ≤ fuel)%nat →
  ack_loop char_is_signed fuel w
    = (Return tt, set_stdin "" (set_stdout (stdout w +:+ prompt) w))
  ∧ ∀ (file func : string) (line : Z) (fmt : string) (args : list arg),
      __output char_is_signed fuel file func line Warn_Ack fmt args w
      = (Return tt,
         set_stdin ""
           (set_stdout (stdout w +:+ log_line "WARN" func file line (format fmt args)
                          +:+ LF +:+ prompt) w)).
Proof.
  intros Hc Hin Hfuel.
  assert (Ha : is_accept c = true) by (destruct Hc as [-> | ->]; reflexivity).
  destruct fuel as [|n]; [lia |]. split.
  - rewrite (ack_loop_char _ _ c rest) by assumption. cbv zeta. rewrite Ha.
    rewrite clean_stdin_drains by (destruct w; cbn; lia).
    destruct w; reflexivity.
  - intros file func line fmt args.
    rewrite output_Warn_Ack_enters_loop.
    rewrite (ack_loop_char _ _ c rest) by (destruct w; assumption).
    cbv zeta. rewrite Ha.
    rewrite clean_stdin_drains by (destruct w; cbn; lia).
    same_world.
Qed.

Lemma warn_ack_accept_drains_and_returns_witness :
  ack_loop true 3 (initial ("y" +:+ LF))
    = (Return tt,
       set_stdin "" (set_stdout (stdout (initial ("y" +:+ LF)) +:+ prompt)
                       (initial ("y" +:+ LF))))
  ∧ ∀ (file func : string) (line : Z) (fmt : string) (args : list arg),
      __output true 3 file func line Warn_Ack fmt args (initial ("y" +:+ LF))
      = (Return tt,
         set_stdin ""
           (set_stdout (stdout (initial ("y" +:+ LF))
                          +:+ log_line "WARN" func file line (format fmt args)
                          +:+ LF +:+ prompt) (initial ("y" +:+ LF)))).
Proof.
  apply (warn_ack_accept_drains_and_returns true 3 "y" LF (initial ("y" +:+ LF))).
  - right. reflexivity.
  - reflexivity.
  - vm_compute. lia.
Defined.

(** C5: in the confirmation loop a character that is none of ['Y'],
    ['y'], ['N'], ['n'], ['\r'] costs one re-prompt instruction and one
    further turn of the loop on the characters that follow it; nothing
    else of the input is consumed.  With ["xy\n"] on standard input the
    call prints the prompt, one re-prompt instruction and the prompt
    again, accepts, empties the input and returns. *)
Theorem warn_ack_other_reprompts_once (char_is_signed : bool) (n : nat) (c : ascii)
    (rest : string) (w : world) :
  c ≠ "Y"%char → c ≠ "y"%char → c ≠ "N"%char → c ≠ "n"%char → c ≠ CR →
  stdin w = String c rest →
  ack_loop char_is_signed (S n) w
    = ack_loop char_is_signed n
        (set_stdin rest (set_stdout (stdout w +:+ prompt +:+ reprompt) w))
  ∧ (∀ (fuel : nat) (file func : string) (line : Z) (fmt : string)
       (args : list arg) (w' : world),
       stdin w' = "xy" +:+ LF →
       (4 ≤ fuel)%nat →
       __output char_is_signed fuel file func line Warn_Ack fmt args w'
       = (Return tt,
          set_stdin ""
            (set_stdout (stdout w' +:+ log_line "WARN" func file line (format fmt args)
                           +:+ LF +:+ prompt +:+ reprompt +:+ prompt) w')))
  ∧ occurrences reprompt
      (stdout (__output char_is_signed 4 "a.c" "main" 10 Warn_Ack "sure?" []
                 (initial ("xy" +:+ LF))).2) = 1%nat.
Proof.
  intros HY Hy HN Hn Hr Hin. split; [| split].
  - assert (Hcls : is_accept c = false ∧ is_decline c = false).
    { unfold is_accept, is_decline.
      destruct (Ascii.eqb_spec c "Y"); [contradiction |].
      destruct (Ascii.eqb_spec c "y"); [contradiction |].
      destruct (Ascii.eqb_spec c "N"); [contradiction |].
      destruct (Ascii.eqb_spec c "n"); [contradiction |].
      destruct (Ascii.eqb_spec c CR); [contradiction |].
      split; reflexivity. }
    destruct Hcls as [Ha Hd].
    rewrite (ack_loop_char _ _ c rest) by assumption. cbv zeta. rewrite Ha, Hd.
    same_world.
  - intros fuel file func line fmt args w' Hin' Hfuel.
    destruct fuel as [|[|m]]; [lia | lia |].
    rewrite output_Warn_Ack_enters_loop.
    rewrite (ack_loop_char _ _ "x" ("y" +:+ LF)) by (destruct w'; assumption).
    cbv zeta. change (is_accept "x") with false. change (is_decline "x") with false.
    cbv iota.
    rewrite (ack_loop_char _ _ "y" LF) by (destruct w'; reflexivity).
    cbv zeta. change (is_accept "y") with true. cbv iota.
    rewrite clean_stdin_drains by (destruct w'; cbn; lia).
    same_world.
  - destruct char_is_signed; vm_compute; reflexivity.
Qed.

Lemma warn_ack_other_reprompts_once_witness :
  ack_loop true 4 (initial ("xy" +:+ LF))
    = ack_loop true 3
        (set_stdin ("y" +:+ LF)
           (set_stdout (stdout (initial ("xy" +:+ LF)) +:+ prompt +:+ reprompt)
              (initial ("xy" +:+ LF))))
  ∧ (∀ (fuel : nat) (file func : string) (line : Z) (fmt : string)
       (args : list arg) (w' : world),
       stdin w' = "xy" +:+ LF →
       (4 ≤ fuel)%nat →
       __output true fuel file func line Warn_Ack fmt args w'
       = (Return tt,
          set_stdin ""
            (set_stdout (stdout w' +:+ log_line "WARN" func file line (format fmt args)
                           +:+ LF +:+ prompt +:+ reprompt +:+ prompt) w')))
  ∧ occurrences reprompt
      (stdout (__output true 4 "a.c" "main" 10 Warn_Ack "sure?" []
                 (initial ("xy" +:+ LF))).2) = 1%nat.
Proof.
  apply (warn_ack_other_reprompts_once true 3 "x" ("y" +:+ LF) (initial ("xy" +:+ LF)));
    first [discriminate | reflexivity].
Defined.

(** C9: a line feed read in the confirmation loop is not an answer the
    [switch] knows: the iteration prints the re-prompt instruction and
    the loop goes on with what follows.  When the input is one bare line
    feed the call never exits with status 255: after the re-prompt the
    input is at its end and the loop is still running after any number
    of iterations. *)
Theorem warn_ack_line_feed_reprompts (char_is_signed : bool) (n : nat)
    (rest : string) (w : world) :
  stdin w = LF +:+ rest →
  ack_loop char_is_signed (S n) w
    = ack_loop char_is_signed n
        (set_stdin rest (set_stdout (stdout w +:+ prompt +:+ reprompt) w))
  ∧ (rest = "" →
     ∀ (fuel : nat) (file func : string) (line : Z) (fmt : string) (args : list arg),
       (__output char_is_signed fuel file func line Warn_Ack fmt args w).1 ≠ Exit 255
       ∧ __output char_is_signed (S fuel) file func line Warn_Ack fmt args w
         = (OutOfFuel,
            set_stdin ""
              (set_stdout (stdout w +:+ log_line "WARN" func file line (format fmt args)
                             +:+ LF +:+ prompt +:+ reprompt
                             +:+ repeat_string fuel (prompt +:+ reprompt)) w))).
Proof.
  intros Hin.
  assert (Hstep : ∀ (m : nat) (u : world), stdin u = LF +:+ rest →
            ack_loop char_is_signed (S m) u
            = ack_loop char_is_signed m
                (set_stdin rest (set_stdout (stdout u +:+ prompt +:+ reprompt) u))).
  { intros m u Hu.
    rewrite (ack_loop_char _ _ "010" rest) by assumption.
    cbv zeta. change (is_accept "010") with false. change (is_decline "010") with false.
    cbv iota. same_world. }
  split; [apply Hstep, Hin |].
  intros -> fuel file func line fmt args.
  assert (Hrun : ∀ m : nat,
            __output char_is_signed (S m) file func line Warn_Ack fmt args w
            = (OutOfFuel,
               set_stdin ""
                 (set_stdout (stdout w +:+ log_line "WARN" func file line (format fmt args)
                                +:+ LF +:+ prompt +:+ reprompt
                                +:+ repeat_string m (prompt +:+ reprompt)) w))).
  { intros m. rewrite output_Warn_Ack_enters_loop.
    rewrite Hstep by (destruct w; assumption).
    rewrite ack_loop_eof_forever by (destruct w; reflexivity).
    same_world. }
  split; [| apply Hrun].
  destruct fuel as [|m].
  - rewrite output_Warn_Ack_enters_loop. cbn. discriminate.
  - rewrite Hrun. cbn. discriminate.
Qed.

Lemma warn_ack_line_feed_reprompts_witness :
  ack_loop true 1 (initial LF)
    = ack_loop true 0
        (set_stdin "" (set_stdout (stdout (initial LF) +:+ prompt +:+ reprompt)
                         (initial LF)))
  ∧ ("" = "" →
     ∀ (fuel : nat) (file func : string) (line : Z) (fmt : string) (args : list arg),
       (__output true fuel file func line Warn_Ack fmt args (initial LF)).1 ≠ Exit 255
       ∧ __output true (S fuel) file func line Warn_Ack fmt args (initial LF)
         = (OutOfFuel,
            set_stdin ""
              (set_stdout (stdout (initial LF)
                             +:+ log_line "WARN" func file line (format fmt args)
                             +:+ LF +:+ prompt +:+ reprompt
                             +:+ repeat_string fuel (prompt +:+ reprompt))
                 (initial LF)))).
Proof.
  apply (warn_ack_line_feed_reprompts true 0 "" (initial LF)).
  reflexivity.
Defined.

(** C10: once standard input is at its end, a [Warn_Ack] call stays in
    the confirmation loop for good: whatever number of iterations is
    allowed, the call has neither returned nor ended the process, and
    every iteration has printed the prompt and the re-prompt
    instruction again. *)
Theorem warn_ack_eof_never_terminates (char_is_signed : bool) (fuel : nat)
    (file func : string) (line : Z) (fmt : string) (args : list arg) (w : world) :
  stdin w = "" →
  ack_loop char_is_signed fuel w
    = (OutOfFuel,
       set_stdout (stdout w +:+ repeat_string fuel (prompt +:+ reprompt)) w)
  ∧ __output char_is_signed fuel file func line Warn_Ack fmt args w
    = (OutOfFuel,
       set_stdout (stdout w +:+ log_line "WARN" func file line (format fmt args)
                     +:+ LF +:+ repeat_string fuel (prompt +:+ reprompt)) w).
Proof.
  intros Hin. split.
  - now apply ack_loop_eof_forever.
  - rewrite output_Warn_Ack_enters_loop.
    rewrite ack_loop_eof_forever by (destruct w; assumption).
    same_world.
Qed.

Lemma warn_ack_eof_never_terminates_witness :
  ack_loop false 7 (initial "")
    = (OutOfFuel,
       set_stdout (stdout (initial "") +:+ repeat_string 7 (prompt +:+ reprompt))
         (initial ""))
  ∧ __output false 7 "a.c" "main" 10 Warn_Ack "sure?" [] (initial "")
    = (OutOfFuel,
       set_stdout (stdout (initial "") +:+ log_line "WARN" "main" "a.c" 10
                                              (format "sure?" [])
                     +:+ LF +:+ repeat_string 7 (prompt +:+ reprompt)) (initial "")).
Proof.
  apply (warn_ack_eof_never_terminates false 7 "a.c" "main" 10 "sure?" [] (initial "")).
  reflexivity.
Defined.

(** ** Further properties of the allocation guard *)

(** X1: [_xfree] twice on the same variable does what [_xfree] once
    does: the second call finds the variable null and frees nothing, so
    the macro turns a repeated release into a harmless one. *)
Theorem xfree_twice_is_xfree_once (x : string) (w : world) :
  (_xfree x ;; _xfree x) w = _xfree x w.
Proof.
  unfold _xfree, bind, load, free, store.
  destruct w as [h v i o e]; cbn [vars heap set_vars set_heap].
  destruct (default NULL (v !! x) =? NULL); cbn [vars heap set_vars set_heap];
    rewrite lookup_insert_eq; cbn [default]; rewrite Z.eqb_refl;
    unfold set_vars; cbn; now rewrite insert_insert_eq.
Qed.

(** X2: [_xfree] clears only the variable it is applied to.  A second
    variable that holds the same address keeps it, although the block
    at that address is no longer live. *)
Theorem xfree_leaves_alias_dangling (x y : string) (p : Z) (w : world) :
  x ≠ y →
  vars w !! x = Some p →
  vars w !! y = Some p →
  p ≠ NULL →
  p ∈ heap w →
  (_xfree x w).1 = Return tt
  ∧ vars (_xfree x w).2 !! x = Some NULL
  ∧ vars (_xfree x w).2 !! y = Some p
  ∧ p ∉ heap (_xfree x w).2.
Proof.
  intros Hxy Hx Hy Hp Hlive.
  unfold _xfree, bind, load, free, store. rewrite Hx.
  simpl.
  destruct (Z.eqb_spec p NULL) as [Heq | _]; [contradiction |].
  cbn. split; [reflexivity |].
  split; [apply lookup_insert_eq |].
  split; [now rewrite lookup_insert_ne |].
  intros [_ Hnot]%elem_of_difference. apply Hnot. now apply elem_of_singleton.
Qed.

Lemma xfree_leaves_alias_dangling_witness :
  let w := World {[5; 6]} {["p" := 5; "q" := 5]} "" "" "" in
  (_xfree "p" w).1 = Return tt
  ∧ vars (_xfree "p" w).2 !! "p" = Some NULL
  ∧ vars (_xfree "p" w).2 !! "q" = Some 5
  ∧ 5 ∉ heap (_xfree "p" w).2.
Proof.
  apply (xfree_leaves_alias_dangling "p" "q" 5
           (World {[5; 6]} {["p" := 5; "q" := 5]} "" "" "")).
  - discriminate.
  - reflexivity.
  - reflexivity.
  - discriminate.
  - cbn. apply elem_of_union_l. now apply elem_of_singleton.
Defined.

(** X3: allocate, keep the address in a variable, release.  When the
    allocator hands out an address that was not live and marks it live,
    [x = _xmalloc (size); _xfree (x);] returns with the set of live
    blocks as it was before and [x] null; nothing is written to either
    stream. *)
Theorem xmalloc_then_xfree_restores_heap
    (malloc_impl : Z -> gset Z -> Z * gset Z) (size : Z) (x : string) (p : Z)
    (w : world) :
  malloc_impl size (heap w) = (p, heap w ∪ {[p]}) →
  p ≠ NULL →
  p ∉ heap w →
  (q <- _xmalloc malloc_impl size ;; store x q ;; _xfree x) w
  = (Return tt, set_vars (<[x := NULL]> (vars w)) w).
Proof.
  intros Hm Hp Hfresh.
  assert (Hne : (p =? NULL) = false) by now apply Z.eqb_neq.
  unfold _xmalloc, _xfree, bind, malloc, load, free, store, ret. rewrite Hm.
  simpl. rewrite Hne. simpl. rewrite lookup_insert_eq. simpl. rewrite Hne.
  destruct w as [h v i o e]; unfold set_vars, set_heap; simpl in *.
  f_equal. f_equal.
  - apply set_eq. intros a.
    rewrite elem_of_difference, elem_of_union, elem_of_singleton.
    split; [intros [[Ha | Ha] Hn]; [assumption | contradiction] |].
    intros Ha. split; [now left | intros ->; contradiction].
  - apply insert_insert_eq.
Qed.

Lemma xmalloc_then_xfree_restores_heap_witness :
  let bump := fun (_ : Z) (h : gset Z) => (16, h ∪ {[16]}) in
  (q <- _xmalloc bump 32 ;; store "buf" q ;; _xfree "buf") (initial "")
  = (Return tt, set_vars (<["buf" := NULL]> (vars (initial ""))) (initial "")).
Proof.
  apply (xmalloc_then_xfree_restores_heap
           (fun (_ : Z) (h : gset Z) => (16, h ∪ {[16]})) 32 "buf" 16 (initial "")).
  - reflexivity.
  - discriminate.
  - apply not_elem_of_empty.
Defined.



(** ** Further properties of the confirmation loop *)

Lemma has_answer_cons (c : ascii) (s : string) :
  has_answer (String c s) = false →
  is_accept c = false ∧ is_decline c = false ∧ has_answer s = false.
Proof.
  cbn [has_answer]. unfold is_answer.
  destruct (is_accept c), (is_decline c), (has_answer s); cbn; intros H;
    first [discriminate H | repeat split].
Qed.

(** The first answer in a text that holds one, with what precedes and
    what follows it. *)
Lemma has_answer_split (s : string) :
  has_answer s = true →
  ∃ (pre : string) (c : ascii) (rest : string),
    s = pre +:+ String c rest ∧ has_answer pre = false ∧ is_answer c = true.
Proof.
  induction s as [|a s IH]; [discriminate |].
  cbn [has_answer]. destruct (is_answer a) eqn:Ha.
  - intros _. exists "", a, s. repeat split. assumption.
  - cbn [orb]. intros Hs. destruct (IH Hs) as (pre & c & rest & -> & Hpre & Hc).
    exists (String a pre), c, rest. repeat split; [| assumption].
    cbn [has_answer]. now rewrite Ha, Hpre.
Qed.

Lemma decline_is_not_accept (c : ascii) :
  c = "N"%char ∨ c = "n"%char ∨ c = CR → is_accept c = false ∧ is_decline c = true.
Proof. intros [-> | [-> | ->]]; split; reflexivity. Qed.

(** Characters that are no answer are used up one per iteration, each
    iteration printing the prompt and the re-prompt instruction. *)
Lemma ack_loop_skip (char_is_signed : bool) (pre tail : string) (n : nat) (w : world) :
  has_answer pre = false →
  stdin w = pre +:+ tail →
  ack_loop char_is_signed (String.length pre + n) w
  = ack_loop char_is_signed n
      (set_stdin tail
         (set_stdout
            (stdout w +:+ repeat_string (String.length pre) (prompt +:+ reprompt)) w)).
Proof.
  revert w. induction pre as [|c pre IH]; intros w Hpre Hin.
  - cbn [String.length repeat_string Nat.add].
    destruct w as [h v i o e]; cbn in Hin; subst i.
    unfold set_stdin, set_stdout; cbn. now rewrite append_empty_r.
  - apply has_answer_cons in Hpre as (Ha & Hd & Hpre).
    cbn [String.length Nat.add].
    rewrite (ack_loop_char _ _ c (pre +:+ tail)) by exact Hin.
    cbv zeta. rewrite Ha, Hd.
    rewrite IH by (destruct w; first [assumption | reflexivity]).
    cbn [repeat_string]. same_world.
Qed.

(** With no answer anywhere in the input the loop keeps going: each
    iteration uses up one character, if one is left, and prints the
    prompt and the re-prompt instruction. *)
Lemma ack_loop_no_answer (char_is_signed : bool) (fuel : nat) (w : world) :
  has_answer (stdin w) = false →
  ack_loop char_is_signed fuel w
  = (OutOfFuel,
     set_stdin (drop_chars fuel (stdin w))
       (set_stdout (stdout w +:+ repeat_string fuel (prompt +:+ reprompt)) w)).
Proof.
  revert w. induction fuel as [|n IH]; intros w Hno.
  - destruct w as [h v i o e]. unfold set_stdin, set_stdout, out_of_fuel; cbn.
    now rewrite append_empty_r.
  - destruct (stdin w) as [|c rest] eqn:Hin.
    + rewrite ack_loop_eof by assumption.
      rewrite IH by (destruct w; cbn in *; subst; reflexivity).
      destruct w as [h v i o e]; cbn in Hin; subst i.
      unfold set_stdin, set_stdout; cbn [heap vars stdin stdout stderr].
      cbn [repeat_string]. replace (drop_chars n "") with "" by (now destruct n).
      now rewrite !append_assoc.
    + apply has_answer_cons in Hno as (Ha & Hd & Hrest).
      rewrite (ack_loop_char _ _ c rest) by assumption.
      cbv zeta. rewrite Ha, Hd.
      rewrite IH by (destruct w; assumption).
      cbn [repeat_string drop_chars]. same_world.
Qed.

(** The loop up to and including the iteration that reads the first
    answer [c]. *)
Lemma ack_loop_first_answer (char_is_signed : bool) (pre : string) (c : ascii)
    (rest : string) (n : nat) (w : world) :
  has_answer pre = false →
  stdin w = pre +:+ String c rest →
  ack_loop char_is_signed (String.length pre + S n) w
  = let w1 :=
      set_stdin rest
        (set_stdout
           (stdout w +:+ repeat_string (String.length pre) (prompt +:+ reprompt)
              +:+ prompt) w) in
    if is_accept c then clean_stdin n w1
    else if is_decline c then (Exit 255, w1)
    else ack_loop char_is_signed n (set_stdout (stdout w1 +:+ reprompt) w1).
Proof.
  intros Hpre Hin.
  rewrite (ack_loop_skip _ pre (String c rest)) by assumption.
  rewrite (ack_loop_char _ _ c rest) by (destruct w; reflexivity).
  cbv zeta. destruct (is_accept c); [| destruct (is_decline c)]; f_equal; same_world.
Qed.

(** X5: a [Warn_Ack] call whose input holds [k] characters that are no
    answer and then ['Y'] or ['y'] prints the prompt [k + 1] times with
    a re-prompt instruction after each of the first [k], discards the
    whole input, whatever follows the accepting character, and
    returns. *)
Theorem warn_ack_returns_at_first_accept (char_is_signed : bool) (fuel : nat)
    (file func : string) (line : Z) (fmt : string) (args : list arg)
    (pre : string) (c : ascii) (rest : string) (w : world) :
  has_answer pre = false →
  c = "Y"%char ∨ c = "y"%char →
  stdin w = pre +:+ String c rest →
  (String.length pre + String.length rest + 2 ≤ fuel)%nat →
  __output char_is_signed fuel file func line Warn_Ack fmt args w
  = (Return tt,
     set_stdin ""
       (set_stdout
          (stdout w +:+ log_line "WARN" func file line (format fmt args) +:+ LF
             +:+ repeat_string (String.length pre) (prompt +:+ reprompt)
             +:+ prompt) w)).
Proof.
  intros Hpre Hc Hin Hfuel.
  assert (Ha : is_accept c = true) by (destruct Hc as [-> | ->]; reflexivity).
  replace fuel with (String.length pre + S (fuel - String.length pre - 1))%nat by lia.
  rewrite output_Warn_Ack_enters_loop.
  rewrite (ack_loop_first_answer _ pre c rest) by (destruct w; assumption).
  cbv zeta. rewrite Ha.
  rewrite clean_stdin_drains by (destruct w; cbn; lia).
  same_world.
Qed.

Lemma warn_ack_returns_at_first_accept_witness :
  __output true 9 "a.c" "main" 10 Warn_Ack "sure?" [] (initial ("ok" +:+ LF +:+ "yn"))
  = (Return tt,
     set_stdin ""
       (set_stdout
          (stdout (initial ("ok" +:+ LF +:+ "yn"))
             +:+ log_line "WARN" "main" "a.c" 10 (format "sure?" []) +:+ LF
             +:+ repeat_string (String.length ("ok" +:+ LF)) (prompt +:+ reprompt)
             +:+ prompt) (initial ("ok" +:+ LF +:+ "yn")))).
Proof.
  apply (warn_ack_returns_at_first_accept true 9 "a.c" "main" 10 "sure?" []
           ("ok" +:+ LF) "y" "n" (initial ("ok" +:+ LF +:+ "yn"))).
  - reflexivity.
  - right. reflexivity.
  - reflexivity.
  - vm_compute. lia.
Defined.

(** X6: a [Warn_Ack] call whose input holds [k] characters that are no
    answer and then ['N'], ['n'] or ['\r'] ends the process with status
    255 after [k] re-prompts; unlike an accepted call it leaves the
    input that follows the declining character unread. *)
Theorem warn_ack_exits_at_first_decline (char_is_signed : bool) (fuel : nat)
    (file func : string) (line : Z) (fmt : string) (args : list arg)
    (pre : string) (c : ascii) (rest : string) (w : world) :
  has_answer pre = false →
  c = "N"%char ∨ c = "n"%char ∨ c = CR →
  stdin w = pre +:+ String c rest →
  (String.length pre + 1 ≤ fuel)%nat →
  __output char_is_signed fuel file func line Warn_Ack fmt args w
  = (Exit 255,
     set_stdin rest
       (set_stdout
          (stdout w +:+ log_line "WARN" func file line (format fmt args) +:+ LF
             +:+ repeat_string (String.length pre) (prompt +:+ reprompt)
             +:+ prompt) w)).
Proof.
  intros Hpre Hc Hin Hfuel.
  destruct (decline_is_not_accept c Hc) as [Ha Hd].
  replace fuel with (String.length pre + S (fuel - String.length pre - 1))%nat by lia.
  rewrite output_Warn_Ack_enters_loop.
  rewrite (ack_loop_first_answer _ pre c rest) by (destruct w; assumption).
  cbv zeta. rewrite Ha, Hd. same_world.
Qed.

Lemma warn_ack_exits_at_first_decline_witness :
  __output false 3 "a.c" "main" 10 Warn_Ack "sure?" [] (initial ("?" +:+ LF +:+ "ny"))
  = (Exit 255,
     set_stdin "y"
       (set_stdout
          (stdout (initial ("?" +:+ LF +:+ "ny"))
             +:+ log_line "WARN" "main" "a.c" 10 (format "sure?" []) +:+ LF
             +:+ repeat_string (String.length ("?" +:+ LF)) (prompt +:+ reprompt)
             +:+ prompt) (initial ("?" +:+ LF +:+ "ny")))).
Proof.
  apply (warn_ack_exits_at_first_decline false 3 "a.c" "main" 10 "sure?" []
           ("?" +:+ LF) "n" "y" (initial ("?" +:+ LF +:+ "ny"))).
  - reflexivity.
  - right. left. reflexivity.
  - reflexivity.
  - vm_compute. lia.
Defined.

(** X7: a [Warn_Ack] call whose input holds none of ['Y'], ['y'],
    ['N'], ['n'], ['\r'] never ends: after any number of iterations it
    is still in the loop, having used up one character of input per
    iteration while there were any and printed the prompt and the
    re-prompt instruction once per iteration. *)
Theorem warn_ack_without_answer_never_ends (char_is_signed : bool) (fuel : nat)
    (file func : string) (line : Z) (fmt : string) (args : list arg) (w : world) :
  has_answer (stdin w) = false →
  __output char_is_signed fuel file func line Warn_Ack fmt args w
  = (OutOfFuel,
     set_stdin (drop_chars fuel (stdin w))
       (set_stdout
          (stdout w +:+ log_line "WARN" func file line (format fmt args) +:+ LF
             +:+ repeat_string fuel (prompt +:+ reprompt)) w)).
Proof.
  intros Hno. rewrite output_Warn_Ack_enters_loop.
  rewrite ack_loop_no_answer by (destruct w; assumption).
  same_world.
Qed.

Lemma warn_ack_without_answer_never_ends_witness :
  __output true 9 "a.c" "main" 10 Warn_Ack "sure?" [] (initial ("what?" +:+ LF))
  = (OutOfFuel,
     set_stdin (drop_chars 9 (stdin (initial ("what?" +:+ LF))))
       (set_stdout
          (stdout (initial ("what?" +:+ LF))
             +:+ log_line "WARN" "main" "a.c" 10 (format "sure?" []) +:+ LF
             +:+ repeat_string 9 (prompt +:+ reprompt)) (initial ("what?" +:+ LF)))).
Proof.
  apply (warn_ack_without_answer_never_ends true 9 "a.c" "main" 10 "sure?" []
           (initial ("what?" +:+ LF))).
  reflexivity.
Defined.

(** X8: a [Warn_Ack] call comes to an end, by returning or by ending
    the process, exactly when the input still to be read holds one of
    ['Y'], ['y'], ['N'], ['n'], ['\r']. *)
Theorem warn_ack_ends_iff_input_has_answer (char_is_signed : bool)
    (file func : string) (line : Z) (fmt : string) (args : list arg) (w : world) :
  (∃ fuel : nat,
     (__output char_is_signed fuel file func line Warn_Ack fmt args w).1 ≠ OutOfFuel)
  ↔ has_answer (stdin w) = true.
Proof.
  split.
  - intros [fuel Hend]. destruct (has_answer (stdin w)) eqn:Hs; [reflexivity |].
    exfalso. apply Hend. rewrite output_Warn_Ack_enters_loop.
    now rewrite ack_loop_no_answer by (destruct w; assumption).
  - intros Hs. destruct (has_answer_split _ Hs) as (pre & c & rest & Hin & Hpre & Hc).
    exists (String.length pre + S (S (String.length rest)))%nat.
    rewrite output_Warn_Ack_enters_loop.
    rewrite (ack_loop_first_answer _ pre c rest) by (destruct w; assumption).
    cbv zeta. unfold is_answer in Hc.
    destruct (is_accept c).
    + rewrite clean_stdin_drains by (destruct w; cbn; lia). discriminate.
    + cbn [orb] in Hc. rewrite Hc. discriminate.
Qed.

(** ** What a logging call leaves alone *)

Lemma output_Info_run (char_is_signed : bool) (fuel : nat)
    (file func : string) (line : Z) (fmt : string) (args : list arg) (w : world) :
  __output char_is_signed fuel file func line Info fmt args w
  = (Return tt,
     set_stdout (stdout w +:+ log_line "INFO" func file line (format fmt args) +:+ LF) w).
Proof. apply (print_log_line "INFO: " "INFO"). reflexivity. Qed.

Lemma output_Warn_NoAck_run (char_is_signed : bool) (fuel : nat)
    (file func : string) (line : Z) (fmt : string) (args : list arg) (w : world) :
  __output char_is_signed fuel file func line Warn_NoAck fmt args w
  = (Return tt,
     set_stdout (stdout w +:+ log_line "WARN" func file line (format fmt args) +:+ LF) w).
Proof. apply (print_log_line "WARN: " "WARN"). reflexivity. Qed.

Lemma output_Error_run (char_is_signed : bool) (fuel : nat)
    (file func : string) (line : Z) (fmt : string) (args : list arg) (w : world) :
  __output char_is_signed fuel file func line Error fmt args w
  = (Abort,
     set_stdout (stdout w +:+ LF)
       (set_stderr (stderr w +:+ log_line "FAIL" func file line (format fmt args)) w)).
Proof.
  unfold __output, bind, vfprintf, printf, fprintf, fwrite.
  destruct w as [h v i o e]; unfold set_stdout, set_stderr; simpl.
  do 2 f_equal.
  rewrite <- (log_line_prefix "FAIL: " "FAIL" file func line (format fmt args) eq_refl).
  now rewrite !append_assoc.
Qed.

Lemma set_stdin_same (w : world) : set_stdin (stdin w) w = w.
Proof. now destruct w. Qed.

(** The inner loop only moves forward in the input. *)
Lemma clean_stdin_frame (fuel : nat) (w : world) :
  ∃ (r : result unit) (k : nat),
    clean_stdin fuel w = (r, set_stdin (drop_chars k (stdin w)) w)
    ∧ (r = Return tt ∨ r = OutOfFuel).
Proof.
  revert w. induction fuel as [|n IH]; intros w.
  - exists OutOfFuel, O. cbn. rewrite set_stdin_same. split; [reflexivity | now right].
  - cbn [clean_stdin]. unfold bind, getc_stdin.
    destruct (stdin w) as [|c rest] eqn:Hin.
    + exists (Return tt), O. cbn. rewrite <- Hin, set_stdin_same.
      split; [reflexivity | now left].
    + pose proof (chr_range c) as Hc.
      destruct (Z.eqb_spec (chr c) EOF) as [He | _]; [unfold EOF in He; lia |].
      cbn [negb]. destruct (IH (set_stdin rest w)) as (r & k & Hrun & Hr).
      exists r, (S k). split; [| assumption].
      rewrite Hrun. destruct w; reflexivity.
Qed.

(** The confirmation loop only appends to standard output and only
    moves forward in the input; it ends, if at all, by returning or by
    [exit (255)]. *)
Lemma ack_loop_frame (char_is_signed : bool) (fuel : nat) (w : world) :
  ∃ (r : result unit) (k : nat) (o : string),
    ack_loop char_is_signed fuel w
    = (r, set_stdin (drop_chars k (stdin w)) (set_stdout (stdout w +:+ o) w))
    ∧ (r = Return tt ∨ r = Exit 255 ∨ r = OutOfFuel).
Proof.
  revert w. induction fuel as [|n IH]; intros w.
  - exists OutOfFuel, O, "". split; [| now right; right].
    destruct w; unfold set_stdin, set_stdout, out_of_fuel; cbn.
    now rewrite append_empty_r.
  - destruct (stdin w) as [|c rest] eqn:Hin.
    + rewrite ack_loop_eof by assumption.
      destruct (IH (set_stdout (stdout w +:+ prompt +:+ reprompt) w))
        as (r & k & o & Hrun & Hr).
      exists r, k, (prompt +:+ reprompt +:+ o). split; [| assumption].
      rewrite Hrun. destruct w as [h v i o' e]; cbn in Hin; subst i.
      unfold set_stdin, set_stdout; cbn. now rewrite !append_assoc.
    + rewrite (ack_loop_char _ _ c rest) by assumption. cbv zeta.
      destruct (is_accept c); [| destruct (is_decline c)].
      * destruct (clean_stdin_frame n
                    (set_stdin rest (set_stdout (stdout w +:+ prompt) w)))
          as (r & k & Hrun & Hr).
        exists r, (S k), prompt. split; [| tauto].
        rewrite Hrun. destruct w; reflexivity.
      * exists (Exit 255), 1%nat, prompt. split; [| now right; left].
        destruct w; reflexivity.
      * match goal with |- context [ack_loop _ n ?u] =>
          destruct (IH u) as (r & k & o & Hrun & Hr) end.
        exists r, (S k), (prompt +:+ reprompt +:+ o). split; [| assumption].
        rewrite Hrun. destruct w as [h v i o' e].
        unfold set_stdin, set_stdout; cbn. now rewrite !append_assoc.
Qed.

(** X9: whatever the severity, the input and the iteration bound, a
    logging call leaves the heap and the caller's variables as they
    were and only appends to standard output.  Standard error changes
    only at [Error], and then only by appending; standard input is read
    only at [Warn_Ack], and then only forwards.  [Info] and
    [Warn_NoAck] always return, [Error] always aborts, and a [Warn_Ack]
    call that ends does so by returning or with exit status 255. *)
Theorem output_frame (char_is_signed : bool) (fuel : nat)
    (file func : string) (line : Z) (outputType : _OutputType)
    (fmt : string) (args : list arg) (w : world) :
  let r := __output char_is_signed fuel file func line outputType fmt args w in
  heap r.2 = heap w
  ∧ vars r.2 = vars w
  ∧ (∃ o : string, stdout r.2 = stdout w +:+ o)
  ∧ match outputType with
    | Error => ∃ e : string, stderr r.2 = stderr w +:+ e
    | _ => stderr r.2 = stderr w
    end
  ∧ match outputType with
    | Warn_Ack => ∃ k : nat, stdin r.2 = drop_chars k (stdin w)
    | _ => stdin r.2 = stdin w
    end
  ∧ match outputType with
    | Info | Warn_NoAck => r.1 = Return tt
    | Warn_Ack => r.1 = Return tt ∨ r.1 = Exit 255 ∨ r.1 = OutOfFuel
    | Error => r.1 = Abort
    end.
Proof.
  cbv zeta. destruct outputType.
  - rewrite output_Info_run. destruct w; cbn.
    repeat split; eauto.
  - rewrite output_Warn_NoAck_run. destruct w; cbn.
    repeat split; eauto.
  - rewrite output_Warn_Ack_enters_loop.
    match goal with |- context [ack_loop _ fuel ?u] =>
      destruct (ack_loop_frame char_is_signed fuel u) as (r & k & o & Hrun & Hr) end.
    rewrite Hrun. destruct w as [h v i o' e]; cbn.
    repeat split; eauto. rewrite append_assoc. eauto.
  - rewrite output_Error_run. destruct w; cbn.
    repeat split; eauto.
Qed.

(** ** The wrapper macros in sequence *)

